(** * Lifting diary: the ownership-scoped data helpers

    A shallow embedding of [data/workouts.ts], of the [authClient] helper
    of [lib/auth.ts] (as listed in [docs/data-fetching.md]), and of the
    final schema in [db/schema.ts] with its foreign keys. *)

From Stdlib Require Import List String Ascii ZArith Bool Sorting.Permutation
  Sorting.Sorted Lia.
Import ListNotations.
Open Scope Z_scope.

(** ** Rows of the final schema ([db/schema.ts], second version) *)

(** A [timestamp with time zone] is modelled by its instant as an integer. *)
Definition Date := Z.

Record Workout := mkWorkout {
  w_id : string;
  w_userId : string;
  w_name : string;
  w_description : option string;
  w_date : Date;
  w_durationMinutes : option Z
}.

Record Exercise := mkExercise {
  e_id : string;
  e_workoutId : string;
  e_name : string;
  e_description : option string;
  e_order : Z
}.

(** [weightKg] is a [real] column; it is carried as an integer number of
    grams here, no claim looks at it. *)
Record ExerciseSet := mkExerciseSet {
  s_id : string;
  s_exerciseId : string;
  s_order : Z;
  s_reps : Z;
  s_weightKg : Z;
  s_restTimeSeconds : Z
}.

(** The three tables, each in the order the store scans it. *)
Record DB := mkDB {
  workoutsT : list Workout;
  exercisesT : list Exercise;
  exerciseSetsT : list ExerciseSet
}.

(** ** Nested result of the relational query ([db/relations.ts]) *)

Record ExerciseWithSets := mkExerciseWithSets {
  ex : Exercise;
  sets : list ExerciseSet
}.

Record WorkoutWithExercisesAndSets := mkWorkoutWithExercisesAndSets {
  workout : Workout;
  exercises : list ExerciseWithSets
}.

(** ** Request effects

    A request handler reads its ambient context (the session held by the
    auth provider and the database), may throw, and its store reads are
    recorded in a log, so that what was read can be stated. *)

(** [InvalidTextRepresentation] is the error the Postgres driver throws
    when a statement's parameter is not text of the column's type
    (SQLSTATE 22P02, e.g. [invalid input syntax for type uuid]). *)
Inductive AppError := UnauthorizedError | ForbiddenError | InvalidTextRepresentation.

Record Env := mkEnv {
  session_userId : option string;  (* [userId] as returned by [auth()] *)
  db : DB
}.

Inductive StoreRead :=
  | ReadWorkouts (rows : list Workout)
  | ReadWorkoutDetail (row : option WorkoutWithExercisesAndSets).

Definition M (A : Type) := Env -> list StoreRead -> (AppError + A) * list StoreRead.

Definition ret {A} (a : A) : M A := fun _ log => (inr a, log).

Definition bind {A B} (m : M A) (k : A -> M B) : M B :=
  fun env log =>
    match m env log with
    | (inl e, log') => (inl e, log')
    | (inr a, log') => k a env log'
    end.

Definition throw {A} (e : AppError) : M A := fun _ log => (inl e, log).

(** A store round trip: run the query on the database and record its rows. *)
Definition query {A} (q : DB -> A) (rec : A -> StoreRead) : M A :=
  fun env log => let r := q (db env) in (inr r, log ++ [rec r]).

Notation "x <- m ;; k" := (bind m (fun x => k))
  (at level 61, m at next level, right associativity).

(** ** [authClient] (lib/auth.ts)

    [if (!userId) throw new UnauthorizedError(); return { userId };]
    [!userId] holds for [null], [undefined] and the empty string.  The
    [cache()] wrapper only deduplicates calls within one request and does
    not change the result. *)
Definition authClient : M string :=
  fun env log =>
    match session_userId env with
    | None => (inl UnauthorizedError, log)
    | Some u => if String.eqb u EmptyString
                then (inl UnauthorizedError, log)
                else (inr u, log)
    end.

(** ** [getWorkouts] (data/workouts.ts) *)

Record Filter := mkFilter {
  startDate : option Date;
  endDate : option Date
}.

(** The drizzle conditions the helper builds. *)
Inductive Cond :=
  | EqUserId (u : string)     (* eq(workouts.userId, u) *)
  | GteDate (d : Date)        (* gte(workouts.date, d) *)
  | LtDate (d : Date).        (* lt(workouts.date, d) *)

Definition evalCond (c : Cond) (w : Workout) : bool :=
  match c with
  | EqUserId u => String.eqb (w_userId w) u
  | GteDate d => d <=? w_date w
  | LtDate d => w_date w <? d
  end.

(** [and(...conditions)] *)
Definition evalAnd (cs : list Cond) (w : Workout) : bool :=
  forallb (fun c => evalCond c w) cs.

Definition buildConditions (userId : string) (filter : option Filter) : list Cond :=
  let base := [EqUserId userId] in
  match filter with
  | None => base
  | Some f =>
      match startDate f, endDate f with
      | Some s, Some e => base ++ [GteDate s; LtDate e]
      | Some s, None => base ++ [GteDate s]
      | None, Some e => base ++ [LtDate e]
      | None, None => base
      end
  end.

(** [orderBy(desc(workouts.date))]: the rows sorted by date, newest first
    (an insertion sort; rows of equal date keep their scan order). *)
Fixpoint insertDesc (w : Workout) (l : list Workout) : list Workout :=
  match l with
  | [] => [w]
  | x :: r => if w_date x <=? w_date w then w :: x :: r else x :: insertDesc w r
  end.

Fixpoint sortDateDesc (l : list Workout) : list Workout :=
  match l with
  | [] => []
  | x :: r => insertDesc x (sortDateDesc r)
  end.

(** [db.select().from(workouts).where(and(...conditions)).orderBy(desc(workouts.date))] *)
Definition selectWorkouts (conds : list Cond) (d : DB) : list Workout :=
  sortDateDesc (filter (evalAnd conds) (workoutsT d)).

Definition getWorkouts (filter : option Filter) : M (list Workout) :=
  userId <- authClient ;;
  let conditions := buildConditions userId filter in
  query (selectWorkouts conditions) ReadWorkouts.

(** ** [getWorkoutWithExercisesAndSets] (data/workouts.ts) *)

(** [db.query.workouts.findFirst({ where: eq(workouts.id, workoutId),
    with: { exercises: { with: { sets: true } } } })]: the first workout
    row with that id, its exercises and their sets, each child list in the
    order the store scans it (the query has no [orderBy]). *)
Definition setsOf (d : DB) (e : Exercise) : list ExerciseSet :=
  filter (fun s => String.eqb (s_exerciseId s) (e_id e)) (exerciseSetsT d).

Definition exercisesOf (d : DB) (w : Workout) : list ExerciseWithSets :=
  map (fun e => mkExerciseWithSets e (setsOf d e))
      (filter (fun e => String.eqb (e_workoutId e) (w_id w)) (exercisesT d)).

Definition findWorkoutWithExercisesAndSets (workoutId : string) (d : DB)
  : option WorkoutWithExercisesAndSets :=
  match find (fun w => String.eqb (w_id w) workoutId) (workoutsT d) with
  | None => None
  | Some w => Some (mkWorkoutWithExercisesAndSets w (exercisesOf d w))
  end.

Definition getWorkoutWithExercisesAndSets (workoutId : string)
  : M (option WorkoutWithExercisesAndSets) :=
  userId <- authClient ;;
  wk <- query (findWorkoutWithExercisesAndSets workoutId) ReadWorkoutDetail ;;
  (* if (workout && workout.userId !== userId) throw new ForbiddenError(); *)
  if match wk with
     | Some r => negb (String.eqb (w_userId (workout r)) userId)
     | None => false
     end
  then throw ForbiddenError
  else ret wk.

(** ** The uuid parameter of [eq(workouts.id, workoutId)]

    [workouts.id] is a [uuid] column, so Postgres reads the bound
    [workoutId] with the uuid input function ([string_to_uuid] in
    [utils/adt/uuid.c]) and fails the statement when the text is not a
    uuid; rows then match by uuid value.  The definition above compares
    ids as text, which agrees with this for a [workoutId] that is the
    canonical text of a stored id; the helper on an arbitrary [workoutId]
    is [getWorkoutWithExercisesAndSetsUuid] below. *)

(** [isxdigit] *)
Definition isxdigit (c : ascii) : bool :=
  let n := nat_of_ascii c in
  ((48 <=? n)%nat && (n <=? 57)%nat) || ((65 <=? n)%nat && (n <=? 70)%nat) ||
  ((97 <=? n)%nat && (n <=? 102)%nat).

(** The value of a hex digit ([strtoul(str_buf, NULL, 16)] per digit). *)
Definition hexval (c : ascii) : Z :=
  let n := Z.of_nat (nat_of_ascii c) in
  if Z.leb n 57 then n - 48 else if Z.leb n 70 then n - 55 else n - 87.

(** The loop [for (i = 0; i < UUID_LEN; i++)] with [k = UUID_LEN - i]
    bytes left: two hex digits per byte, then one optional ['-'] after an
    odd-numbered byte other than the last. *)
Fixpoint uuidBytes (k : nat) (cs : list ascii) : option (list Z * list ascii) :=
  match k with
  | O => Some ([], cs)
  | S k' =>
      match cs with
      | c1 :: c2 :: rest =>
          if isxdigit c1 && isxdigit c2 then
            let i := (16 - k)%nat in
            let rest' :=
              match rest with
              | c :: r => if Ascii.eqb c "-"%char && Nat.odd i && (i <? 15)%nat
                          then r else rest
              | [] => rest
              end in
            match uuidBytes k' rest' with
            | Some (bs, r) => Some ((hexval c1 * 16 + hexval c2) :: bs, r)
            | None => None
            end
          else None
      | _ => None
      end
  end.

(** [string_to_uuid]: an optional ['{'], the 16 bytes, the matching ['}'],
    then the end of the text; [None] is the syntax error. *)
Definition uuid_in (s : string) : option (list Z) :=
  let cs := list_ascii_of_string s in
  let '(braces, cs1) :=
    match cs with
    | c :: r => if Ascii.eqb c "{"%char then (true, r) else (false, cs)
    | [] => (false, cs)
    end in
  match uuidBytes 16 cs1 with
  | None => None
  | Some (bs, r) =>
      match (if braces
             then match r with
                  | c :: r2 => if Ascii.eqb c "}"%char then Some r2 else None
                  | [] => None
                  end
             else Some r) with
      | Some [] => Some bs
      | _ => None
      end
  end.

(** [workouts.id = $1] on a row, for the parsed parameter [bs]. *)
Definition idMatchesUuid (bs : list Z) (w : Workout) : bool :=
  match uuid_in (w_id w) with
  | Some b => if list_eq_dec Z.eq_dec b bs then true else false
  | None => false
  end.

Definition findWorkoutByUuid (bs : list Z) (d : DB)
  : option WorkoutWithExercisesAndSets :=
  match find (idMatchesUuid bs) (workoutsT d) with
  | None => None
  | Some w => Some (mkWorkoutWithExercisesAndSets w (exercisesOf d w))
  end.

(** [getWorkoutWithExercisesAndSets] with the parameter read as a uuid:
    the statement fails before reading any row when [workoutId] is not
    uuid text, and the error propagates (the helper does not catch it). *)
Definition getWorkoutWithExercisesAndSetsUuid (workoutId : string)
  : M (option WorkoutWithExercisesAndSets) :=
  userId <- authClient ;;
  match uuid_in workoutId with
  | None => throw InvalidTextRepresentation
  | Some bs =>
      wk <- query (findWorkoutByUuid bs) ReadWorkoutDetail ;;
      if match wk with
         | Some r => negb (String.eqb (w_userId (workout r)) userId)
         | None => false
         end
      then throw ForbiddenError
      else ret wk
  end.

(** ** Foreign keys of the final schema and the store's delete

    [exercises.workoutId] is declared [.references(() => workouts.id)] and
    [exerciseSets.exerciseId] [.references(() => exercises.id)], with no
    [onDelete] option, so drizzle emits [ON DELETE no action]; migration
    0003 drops the earlier cascading constraint on [exercise_sets] and
    re-adds both constraints with [ON DELETE no action]. *)
Inductive OnDelete := NoAction | Cascade.

Definition exercises_workout_id_workouts_id_fk : OnDelete := NoAction.
Definition exercise_sets_exercise_id_exercises_id_fk : OnDelete := NoAction.

Inductive StorageError := ForeignKeyViolation (constraint : string).

(** [DELETE FROM exercises WHERE id IN ids] under the action of the
    [exercise_sets] foreign key. *)
Definition deleteExercises (setsFk : OnDelete) (ids : list string) (d : DB)
  : StorageError + DB :=
  let inIds := fun x => existsb (String.eqb x) ids in
  let refs := filter (fun s => inIds (s_exerciseId s)) (exerciseSetsT d) in
  let d' := mkDB (workoutsT d)
                 (filter (fun e => negb (inIds (e_id e))) (exercisesT d))
                 (exerciseSetsT d) in
  match setsFk with
  | NoAction =>
      match refs with
      | [] => inr d'
      | _ :: _ => inl (ForeignKeyViolation "exercise_sets_exercise_id_exercises_id_fk")
      end
  | Cascade =>
      inr (mkDB (workoutsT d') (exercisesT d')
                (filter (fun s => negb (inIds (s_exerciseId s))) (exerciseSetsT d')))
  end.

(** [DELETE FROM workouts WHERE id = workoutId] under the actions of both
    foreign keys. *)
Definition deleteWorkoutRow (exercisesFk setsFk : OnDelete) (workoutId : string)
  (d : DB) : StorageError + DB :=
  let children := filter (fun e => String.eqb (e_workoutId e) workoutId) (exercisesT d) in
  let dropWorkout := fun d0 =>
    mkDB (filter (fun w => negb (String.eqb (w_id w) workoutId)) (workoutsT d0))
         (exercisesT d0) (exerciseSetsT d0) in
  match exercisesFk with
  | NoAction =>
      match children with
      | [] => inr (dropWorkout d)
      | _ :: _ => inl (ForeignKeyViolation "exercises_workout_id_workouts_id_fk")
      end
  | Cascade =>
      match deleteExercises setsFk (map e_id children) d with
      | inl err => inl err
      | inr d' => inr (dropWorkout d')
      end
  end.

(** The delete as the final schema declares it. *)
Definition deleteWorkoutStatement (workoutId : string) (d : DB) : StorageError + DB :=
  deleteWorkoutRow exercises_workout_id_workouts_id_fk
                   exercise_sets_exercise_id_exercises_id_fk workoutId d.

(** ** [createWorkout] *)

Record CreateWorkoutInput := mkCreateWorkoutInput {
  in_name : string;
  in_description : option string;
  in_date : Date;
  in_durationMinutes : option Z
}.

Inductive CreateError :=
  | CreateUnauthorized
  | ValidationFailed (field : string)
  | StorageFailure.

(** Modelled from the spec: the [createWorkout] helper, absent from the
    sources.  An empty identity is [Unauthorized]; [name] must be non-empty
    and [durationMinutes] positive when present, otherwise
    [ValidationFailed] names the field; on success a row owned by the
    identity, with the generated id [newId], is appended to [workouts]. *)
Definition createWorkout (identity newId : string) (input : CreateWorkoutInput)
  (env : Env) : (CreateError + Workout) * Env :=
  if String.eqb identity EmptyString then (inl CreateUnauthorized, env)
  else if String.eqb (in_name input) EmptyString then (inl (ValidationFailed "name"), env)
  else
    let w := mkWorkout newId identity (in_name input) (in_description input)
                       (in_date input) (in_durationMinutes input) in
    let insert := (inr w, mkEnv (session_userId env)
                                (mkDB (workoutsT (db env) ++ [w])
                                      (exercisesT (db env)) (exerciseSetsT (db env)))) in
    match in_durationMinutes input with
    | Some m => if m <=? 0 then (inl (ValidationFailed "durationMinutes"), env) else insert
    | None => insert
    end.

(** ** Callers of the helpers *)

(** The workout detail page ([app/workouts/[workoutId]/page.tsx], current
    version): [if (!workout) notFound(); return <WorkoutDetail .../>;]
    an error thrown by the helper propagates out of the page. *)
Inductive PageOutcome :=
  | RenderWorkoutDetail (r : WorkoutWithExercisesAndSets)
  | NotFoundPage
  | PageError (e : AppError).

Definition WorkoutDetailsPage (workoutId : string) (env : Env) (log : list StoreRead)
  : PageOutcome * list StoreRead :=
  match getWorkoutWithExercisesAndSets workoutId env log with
  | (inl e, log') => (PageError e, log')
  | (inr None, log') => (NotFoundPage, log')
  | (inr (Some r), log') => (RenderWorkoutDetail r, log')
  end.

(** The dashboard's [WorkoutList] (current version, in the unnamed
    workout-list component): it asks [getWorkouts] for both bounds, shows
    [WorkoutListEmpty] for no rows and otherwise one [WorkoutCard] per row;
    each card links to [/workouts/${id}]. *)
Record WorkoutCardProps := mkWorkoutCardProps {
  card_id : string;
  card_name : string;
  card_description : option string;
  card_durationMinutes : option Z;
  card_date : Date
}.

Definition toCardProps (w : Workout) : WorkoutCardProps :=
  mkWorkoutCardProps (w_id w) (w_name w) (w_description w)
                     (w_durationMinutes w) (w_date w).

Definition cardHref (c : WorkoutCardProps) : string :=
  ("/workouts/" ++ card_id c)%string.

Inductive ListView :=
  | WorkoutListEmpty
  | WorkoutCards (cards : list WorkoutCardProps)
  | ListError (e : AppError).

Definition WorkoutList (start end_ : Date) (env : Env) (log : list StoreRead)
  : ListView * list StoreRead :=
  match getWorkouts (Some (mkFilter (Some start) (Some end_))) env log with
  | (inl e, log') => (ListError e, log')
  | (inr rows, log') =>
      match rows with
      | [] => (WorkoutListEmpty, log')
      | _ :: _ => (WorkoutCards (map toCardProps rows), log')
      end
  end.

(** The separator after a set in [WorkoutDetail]
    ([{set.order !== exercise.sets.length && <Separator />}]): one flag per
    set, in display order. *)
Definition separatorShown (setsL : list ExerciseSet) : list bool :=
  map (fun s => negb (s_order s =? Z.of_nat (List.length setsL))) setsL.

(** The earlier detail helper (the unnamed variant of [data/workouts.ts]
    taking [userId]): [findFirst({ where: and(eq(workouts.id, workoutId),
    eq(workouts.userId, userId)), with: ... })], no ownership check after.
    Ids are compared as text, as in [findWorkoutWithExercisesAndSets]. *)
Definition findOwnedWorkoutWithExercisesAndSets (workoutId userId : string) (d : DB)
  : option WorkoutWithExercisesAndSets :=
  match find (fun w => String.eqb (w_id w) workoutId && String.eqb (w_userId w) userId)
             (workoutsT d) with
  | None => None
  | Some w => Some (mkWorkoutWithExercisesAndSets w (exercisesOf d w))
  end.

(** [setTimezoneCookie] ([actions/set-timezone-cookie.ts]) and the
    dashboard's read of the cookie.  The jar holds the [user_timezone]
    value, if any.  [s.includes(sub)] is [s.indexOf(sub) !== -1]. *)
Definition includes (s sub : string) : bool :=
  match String.index 0 sub s with Some _ => true | None => false end.

Definition setTimezoneCookie (timezone : string) (jar : option string) : option string :=
  if negb (includes timezone "/") then jar else Some timezone.

(** [cookieStore.get("user_timezone")?.value || "UTC"] *)
Definition userTimezone (jar : option string) : string :=
  match jar with
  | Some v => if String.eqb v EmptyString then "UTC"%string else v
  | None => "UTC"%string
  end.

(** * Properties *)

(** ** Running the helpers with a signed-in caller *)

Section SignedIn.

Variable env : Env.
Variable u : string.
Hypothesis Hsession : session_userId env = Some u.
Hypothesis Hnonempty : u <> EmptyString.

Lemma authClient_signed_in (log : list StoreRead) :
  authClient env log = (inr u, log).
Proof.
  unfold authClient. rewrite Hsession.
  destruct (String.eqb_spec u EmptyString); [contradiction | reflexivity].
Qed.

Lemma getWorkouts_signed_in (f : option Filter) (log : list StoreRead) :
  getWorkouts f env log =
  (inr (selectWorkouts (buildConditions u f) (db env)),
   log ++ [ReadWorkouts (selectWorkouts (buildConditions u f) (db env))]).
Proof.
  unfold getWorkouts, bind. rewrite authClient_signed_in. reflexivity.
Qed.

Lemma getWorkoutWithExercisesAndSets_signed_in (wid : string) (log : list StoreRead) :
  getWorkoutWithExercisesAndSets wid env log =
  (match findWorkoutWithExercisesAndSets wid (db env) with
   | Some r => if String.eqb (w_userId (workout r)) u
               then inr (Some r) else inl ForbiddenError
   | None => inr None
   end,
   log ++ [ReadWorkoutDetail (findWorkoutWithExercisesAndSets wid (db env))]).
Proof.
  unfold getWorkoutWithExercisesAndSets, bind. rewrite authClient_signed_in.
  unfold query, throw, ret.
  destruct (findWorkoutWithExercisesAndSets wid (db env)) as [r|]; [|reflexivity].
  destruct (String.eqb (w_userId (workout r)) u); reflexivity.
Qed.

End SignedIn.

(** ** The date ordering *)

Definition newerOrSame (a b : Workout) : Prop := w_date b <= w_date a.

Lemma insertDesc_perm (w : Workout) (l : list Workout) :
  Permutation (insertDesc w l) (w :: l).
Proof.
  induction l as [|x r IH]; simpl; [reflexivity|].
  destruct (w_date x <=? w_date w); [reflexivity|].
  rewrite IH. apply perm_swap.
Qed.

Lemma sortDateDesc_perm (l : list Workout) : Permutation (sortDateDesc l) l.
Proof.
  induction l as [|x r IH]; simpl; [reflexivity|].
  rewrite insertDesc_perm. now apply perm_skip.
Qed.

Lemma insertDesc_sorted (w : Workout) (l : list Workout) :
  Sorted newerOrSame l -> Sorted newerOrSame (insertDesc w l).
Proof.
  induction l as [|x r IH]; intros Hs; simpl.
  - repeat constructor.
  - destruct (Z.leb_spec (w_date x) (w_date w)) as [Hle|Hgt].
    + constructor; [exact Hs|]. constructor. unfold newerOrSame. exact Hle.
    + inversion Hs as [|? ? Hr Hhd]; subst.
      constructor; [now apply IH|].
      destruct r as [|y r']; simpl.
      * constructor. unfold newerOrSame. lia.
      * inversion Hhd; subst.
        destruct (w_date y <=? w_date w); constructor; unfold newerOrSame in *; lia.
Qed.

Lemma sortDateDesc_sorted (l : list Workout) : Sorted newerOrSame (sortDateDesc l).
Proof.
  induction l as [|x r IH]; simpl; [constructor|]. now apply insertDesc_sorted.
Qed.

Lemma In_selectWorkouts (conds : list Cond) (d : DB) (w : Workout) :
  In w (selectWorkouts conds d) <-> In w (workoutsT d) /\ evalAnd conds w = true.
Proof.
  unfold selectWorkouts. split; intros H.
  - apply filter_In. eapply Permutation_in; [apply sortDateDesc_perm|exact H].
  - eapply Permutation_in; [symmetry; apply sortDateDesc_perm|]. now apply filter_In.
Qed.

(** The conditions built for a caller, as a predicate on a row. *)
Lemma evalAnd_buildConditions (u : string) (f : option Filter) (w : Workout) :
  evalAnd (buildConditions u f) w = true <->
  w_userId w = u /\
  match f with
  | None => True
  | Some fl =>
      (match startDate fl with Some s => s <= w_date w | None => True end) /\
      (match endDate fl with Some e => w_date w < e | None => True end)
  end.
Proof.
  unfold evalAnd, buildConditions.
  destruct f as [[[s|] [e|]]|]; simpl;
    rewrite ?andb_true_r, ?andb_true_iff, ?String.eqb_eq, ?Z.leb_le, ?Z.ltb_lt;
    intuition.
Qed.

(** Primary keys: the first row with the id of a stored row is that row. *)
Lemma find_by_unique_id (l : list Workout) (W : Workout) :
  NoDup (map w_id l) -> In W l ->
  find (fun w => String.eqb (w_id w) (w_id W)) l = Some W.
Proof.
  induction l as [|x r IH]; intros Hnd Hin; [destruct Hin|].
  simpl in *. inversion Hnd as [|? ? Hnotin Hnd']; subst.
  destruct (String.eqb_spec (w_id x) (w_id W)) as [Heq|Hne].
  - destruct Hin as [->|Hin]; [reflexivity|].
    exfalso. apply Hnotin. rewrite Heq. now apply in_map.
  - destruct Hin as [->|Hin]; [contradiction|]. now apply IH.
Qed.

(** ** Read paths *)

(** C1 (ownership isolation): when [B] is signed in and [W] is owned by
    another identity [A], [getWorkouts] (with any filter) returns only rows
    owned by [B], so never [W], and [getWorkoutWithExercisesAndSets] on
    [W]'s id throws [ForbiddenError].  Workout ids are a primary key. *)
Theorem ownership_isolation (env : Env) (A B : string) (W : Workout)
  (f : option Filter) (log : list StoreRead) :
  session_userId env = Some B -> B <> EmptyString -> A <> B ->
  NoDup (map w_id (workoutsT (db env))) ->
  In W (workoutsT (db env)) -> w_userId W = A ->
  (exists rows, fst (getWorkouts f env log) = inr rows /\ ~ In W rows /\
                Forall (fun r => w_userId r = B) rows) /\
  fst (getWorkoutWithExercisesAndSets (w_id W) env log) = inl ForbiddenError.
Proof.
  intros Hs Hne HAB Hnd Hin Hown. split.
  - rewrite (getWorkouts_signed_in env B Hs Hne). simpl.
    eexists; split; [reflexivity|]. split.
    + intros HW. apply In_selectWorkouts in HW as [_ Hc].
      apply evalAnd_buildConditions in Hc as [Hu _]. congruence.
    + apply Forall_forall. intros r Hr.
      apply In_selectWorkouts in Hr as [_ Hc].
      now apply evalAnd_buildConditions in Hc as [Hu _].
  - rewrite (getWorkoutWithExercisesAndSets_signed_in env B Hs Hne). simpl.
    unfold findWorkoutWithExercisesAndSets.
    rewrite (find_by_unique_id _ W Hnd Hin). simpl.
    destruct (String.eqb_spec (w_userId W) B); [congruence | reflexivity].
Qed.

Lemma idMatchesUuid_true (bs : list Z) (w : Workout) :
  idMatchesUuid bs w = true <-> uuid_in (w_id w) = Some bs.
Proof.
  unfold idMatchesUuid. destruct (uuid_in (w_id w)) as [b|].
  - destruct (list_eq_dec Z.eq_dec b bs) as [->|Hne]; split; intros H;
      try reflexivity; try discriminate H. injection H as ->. contradiction.
  - split; intros H; discriminate H.
Qed.

(** Primary keys by uuid value: the first row matching the uuid of a
    stored row is that row. *)
Lemma find_by_unique_uuid (l : list Workout) (W : Workout) (bs : list Z) :
  NoDup (map (fun w => uuid_in (w_id w)) l) -> In W l ->
  uuid_in (w_id W) = Some bs -> find (idMatchesUuid bs) l = Some W.
Proof.
  induction l as [|x r IH]; intros Hnd Hin HW; [destruct Hin|].
  simpl in *. inversion Hnd as [|? ? Hnotin Hnd']; subst.
  destruct (idMatchesUuid bs x) eqn:Hx.
  - apply idMatchesUuid_true in Hx.
    destruct Hin as [->|Hin]; [reflexivity|].
    exfalso. apply Hnotin. rewrite Hx, <- HW. now apply (in_map (fun w => uuid_in (w_id w))).
  - destruct Hin as [->|Hin].
    + apply idMatchesUuid_true in HW. congruence.
    + now apply IH.
Qed.

(** C3, amended (not found vs forbidden): [workouts.id] is a uuid column.
    For a signed-in caller, a [workoutId] that is not uuid text makes the
    read fail with the store's [InvalidTextRepresentation] error, which is
    neither "not found" nor [ForbiddenError].  For uuid text, the helper
    returns "not found" ([undefined]) exactly when no workout has that id
    (as a uuid value), and throws [ForbiddenError] exactly when one exists
    and is owned by someone else.  The three outcomes are different
    values.  Workout ids are a primary key. *)
Theorem notfound_forbidden_distinction_uuid (env : Env) (u wid : string)
  (log : list StoreRead) :
  session_userId env = Some u -> u <> EmptyString ->
  NoDup (map (fun w => uuid_in (w_id w)) (workoutsT (db env))) ->
  (uuid_in wid = None ->
   fst (getWorkoutWithExercisesAndSetsUuid wid env log) = inl InvalidTextRepresentation) /\
  (forall bs, uuid_in wid = Some bs ->
   (fst (getWorkoutWithExercisesAndSetsUuid wid env log) = inr None <->
    ~ exists w, In w (workoutsT (db env)) /\ uuid_in (w_id w) = Some bs) /\
   (fst (getWorkoutWithExercisesAndSetsUuid wid env log) = inl ForbiddenError <->
    exists w, In w (workoutsT (db env)) /\ uuid_in (w_id w) = Some bs /\ w_userId w <> u)) /\
  (inr None : AppError + option WorkoutWithExercisesAndSets) <> inl ForbiddenError /\
  (inr None : AppError + option WorkoutWithExercisesAndSets) <> inl InvalidTextRepresentation /\
  ForbiddenError <> InvalidTextRepresentation.
Proof.
  intros Hs Hne Hnd.
  unfold getWorkoutWithExercisesAndSetsUuid, bind, throw, ret, query.
  rewrite (authClient_signed_in env u Hs Hne).
  split; [intros Hn; now rewrite Hn|].
  split; [|repeat split; discriminate].
  intros bs Hbs. rewrite Hbs. unfold findWorkoutByUuid.
  case_eq (find (idMatchesUuid bs) (workoutsT (db env))).
  - intros w Hf. apply find_some in Hf as Hw. destruct Hw as [Hin Hid].
    apply idMatchesUuid_true in Hid. simpl.
    destruct (String.eqb_spec (w_userId w) u) as [Hu|Hu]; simpl.
    + split.
      * split; [intros Hc; discriminate Hc|]. intros Hno. exfalso. apply Hno. eauto.
      * split; [intros Hc; discriminate Hc|]. intros [w' [Hin' [Hid' Hu']]].
        rewrite (find_by_unique_uuid _ w' bs Hnd Hin' Hid') in Hf. congruence.
    + split.
      * split; [intros Hc; discriminate Hc|]. intros Hno. exfalso. apply Hno. eauto.
      * split; [eauto|reflexivity].
  - intros Hf. simpl. split.
    + split; [|reflexivity]. intros _ [w [Hin Hid]].
      pose proof (find_none _ _ Hf w Hin) as Hx.
      apply idMatchesUuid_true in Hid. congruence.
    + split; [intros Hc; discriminate Hc|]. intros [w [Hin [Hid _]]].
      pose proof (find_none _ _ Hf w Hin) as Hx.
      apply idMatchesUuid_true in Hid. congruence.
Qed.

(** C5 (half-open range): with both bounds, a workout of the caller dated
    exactly [startDate] is listed (the interval [[s, e)] being non-empty,
    [s < e]) and one dated exactly [endDate] is not. *)
Theorem half_open_date_range (env : Env) (u : string) (s e : Date) (W : Workout)
  (log : list StoreRead) :
  session_userId env = Some u -> u <> EmptyString ->
  In W (workoutsT (db env)) -> w_userId W = u ->
  exists rows,
    fst (getWorkouts (Some (mkFilter (Some s) (Some e))) env log) = inr rows /\
    (w_date W = s -> s < e -> In W rows) /\
    (w_date W = e -> ~ In W rows).
Proof.
  intros Hs Hne Hin Hown.
  rewrite (getWorkouts_signed_in env u Hs Hne). cbn [fst].
  eexists; split; [reflexivity|]. split.
  - intros Hd Hlt. apply In_selectWorkouts. split; [exact Hin|].
    apply evalAnd_buildConditions. split; [exact Hown|]. simpl. lia.
  - intros Hd HW. apply In_selectWorkouts in HW as [_ Hc].
    apply evalAnd_buildConditions in Hc as [_ [_ Hlt]]. simpl in Hlt. lia.
Qed.

Lemma evalAnd_owner_only (u : string) (w : Workout) :
  evalAnd [EqUserId u] w = String.eqb (w_userId w) u.
Proof. unfold evalAnd. simpl. now rewrite andb_true_r. Qed.

(** C6 (list ordering): the rows [getWorkouts] returns are ordered newest
    date first; with no date filter (no filter object, or one with neither
    bound) they are all of the caller's workouts, none left out. *)
Theorem list_newest_first (env : Env) (u : string) (f : option Filter)
  (log : list StoreRead) :
  session_userId env = Some u -> u <> EmptyString ->
  exists rows,
    fst (getWorkouts f env log) = inr rows /\
    Sorted newerOrSame rows /\
    (f = None \/ f = Some (mkFilter None None) ->
     Permutation rows (filter (fun w => String.eqb (w_userId w) u) (workoutsT (db env)))).
Proof.
  intros Hs Hne. rewrite (getWorkouts_signed_in env u Hs Hne). simpl.
  eexists; split; [reflexivity|]. split.
  - apply sortDateDesc_sorted.
  - intros Hf. assert (Hc : buildConditions u f = [EqUserId u])
      by (destruct Hf as [->| ->]; reflexivity).
    unfold selectWorkouts. rewrite Hc, sortDateDesc_perm.
    apply Permutation_refl'. apply filter_ext. apply evalAnd_owner_only.
Qed.

(** C9 (one-sided filters): with only [startDate] the rows are the
    caller's workouts dated at or after it; with only [endDate] those dated
    strictly before it; with no bound all of the caller's workouts; each
    newest first. *)
Theorem one_sided_filters (env : Env) (u : string) (s e : Date)
  (log : list StoreRead) :
  session_userId env = Some u -> u <> EmptyString ->
  fst (getWorkouts (Some (mkFilter (Some s) None)) env log) =
    inr (sortDateDesc (filter (fun w => String.eqb (w_userId w) u && (s <=? w_date w))
                              (workoutsT (db env)))) /\
  fst (getWorkouts (Some (mkFilter None (Some e))) env log) =
    inr (sortDateDesc (filter (fun w => String.eqb (w_userId w) u && (w_date w <? e))
                              (workoutsT (db env)))) /\
  fst (getWorkouts (Some (mkFilter None None)) env log) =
    inr (sortDateDesc (filter (fun w => String.eqb (w_userId w) u) (workoutsT (db env)))) /\
  fst (getWorkouts None env log) =
    inr (sortDateDesc (filter (fun w => String.eqb (w_userId w) u) (workoutsT (db env)))).
Proof.
  intros Hs Hne. rewrite !(getWorkouts_signed_in env u Hs Hne). simpl.
  unfold selectWorkouts, evalAnd, buildConditions. simpl.
  repeat split; do 2 f_equal; apply filter_ext; intros w; simpl;
    now rewrite ?andb_true_r.
Qed.

(** C10 (store read independent of the caller): the detail helper's store
    read is filtered by the workout id alone.  For any two signed-in
    callers on the same database it records the same read; for a stored
    workout owned by someone other than the caller, that read is the whole
    workout with all its exercises and sets, and only afterwards does the
    helper throw [ForbiddenError]. *)
Theorem detail_read_independent_of_caller (env1 env2 : Env) (u1 u2 wid : string)
  (log : list StoreRead) :
  db env1 = db env2 ->
  session_userId env1 = Some u1 -> u1 <> EmptyString ->
  session_userId env2 = Some u2 -> u2 <> EmptyString ->
  snd (getWorkoutWithExercisesAndSets wid env1 log) =
    log ++ [ReadWorkoutDetail (findWorkoutWithExercisesAndSets wid (db env1))] /\
  snd (getWorkoutWithExercisesAndSets wid env2 log) =
    snd (getWorkoutWithExercisesAndSets wid env1 log) /\
  (forall W, NoDup (map w_id (workoutsT (db env1))) -> In W (workoutsT (db env1)) ->
     w_id W = wid -> w_userId W <> u1 ->
     getWorkoutWithExercisesAndSets wid env1 log =
       (inl ForbiddenError,
        log ++ [ReadWorkoutDetail
                  (Some (mkWorkoutWithExercisesAndSets W (exercisesOf (db env1) W)))])).
Proof.
  intros Hdb Hs1 Hne1 Hs2 Hne2.
  rewrite (getWorkoutWithExercisesAndSets_signed_in env1 u1 Hs1 Hne1).
  rewrite (getWorkoutWithExercisesAndSets_signed_in env2 u2 Hs2 Hne2).
  simpl. rewrite Hdb. split; [reflexivity|split; [reflexivity|]].
  intros W Hnd Hin Hid Hown. rewrite <- Hdb in *.
  unfold findWorkoutWithExercisesAndSets. subst wid.
  rewrite (find_by_unique_id _ W Hnd Hin). simpl.
  destruct (String.eqb_spec (w_userId W) u1); [contradiction|reflexivity].
Qed.

(** ** The identity gate *)

(** C7 (fail closed): [authClient] throws exactly when the session carries
    no user id ([null]/[undefined], or the empty string, which [!userId]
    also rejects); [UnauthorizedError] is the only error it throws; with a
    user id it returns it; it reads nothing from the store; and both data
    helpers, which call it first, then throw [UnauthorizedError] without
    any store read. *)
Theorem identity_gate_fails_closed (env : Env) (log : list StoreRead) :
  (fst (authClient env log) = inl UnauthorizedError <->
     session_userId env = None \/ session_userId env = Some EmptyString) /\
  (forall err, fst (authClient env log) = inl err -> err = UnauthorizedError) /\
  (forall u, session_userId env = Some u -> u <> EmptyString ->
     authClient env log = (inr u, log)) /\
  snd (authClient env log) = log /\
  (session_userId env = None \/ session_userId env = Some EmptyString ->
     forall f wid,
       getWorkouts f env log = (inl UnauthorizedError, log) /\
       getWorkoutWithExercisesAndSets wid env log = (inl UnauthorizedError, log)).
Proof.
  unfold getWorkouts, getWorkoutWithExercisesAndSets, bind, authClient.
  destruct (session_userId env) as [u|] eqn:Hs;
    [destruct (String.eqb_spec u EmptyString) as [->|Hne]|]; simpl;
    repeat split; intros;
    repeat match goal with Hd : _ \/ _ |- _ => destruct Hd end;
    simpl in *; try reflexivity; try congruence;
    try (left; reflexivity); try (right; reflexivity).
Qed.

(** ** Creating a workout *)

(** C8 (validation rejection): for a non-empty identity, an empty [name]
    or a non-positive [durationMinutes] makes [createWorkout] fail with
    [ValidationFailed] naming an offending field, an error other than
    [StorageFailure]; the store is left as it was, so a later
    [getWorkouts] returns what it returned before. *)
Theorem validation_rejection (identity newId : string) (input : CreateWorkoutInput)
  (env : Env) :
  identity <> EmptyString ->
  in_name input = EmptyString \/
    (exists m, in_durationMinutes input = Some m /\ m <= 0) ->
  exists field,
    fst (createWorkout identity newId input env) = inl (ValidationFailed field) /\
    ((field = "name"%string /\ in_name input = EmptyString) \/
     (field = "durationMinutes"%string /\
      exists m, in_durationMinutes input = Some m /\ m <= 0)) /\
    ValidationFailed field <> StorageFailure /\
    snd (createWorkout identity newId input env) = env /\
    (forall f log, getWorkouts f (snd (createWorkout identity newId input env)) log =
                   getWorkouts f env log).
Proof.
  intros Hid Hbad. unfold createWorkout.
  destruct (String.eqb_spec identity EmptyString) as [|_]; [contradiction|].
  destruct (String.eqb_spec (in_name input) EmptyString) as [Hn|Hn].
  - exists "name"%string. simpl.
    split; [reflexivity|]. split; [left; auto|].
    split; [discriminate|]. split; reflexivity.
  - destruct Hbad as [Hbad|[m [Hm Hle]]]; [contradiction|].
    rewrite Hm. destruct (Z.leb_spec m 0) as [_|Hgt]; [|lia].
    exists "durationMinutes"%string. simpl.
    split; [reflexivity|]. split; [right; eauto|].
    split; [discriminate|]. split; reflexivity.
Qed.

(** ** Concrete stores *)

Open Scope string_scope.

(** The spec's scenario: dates are written as [yyyymmdd], an encoding that
    keeps their order. *)
Definition legDay : Workout :=
  mkWorkout "w1" "user_1" "Leg Day" None 20250601 None.

Definition pushDay : Workout :=
  mkWorkout "w2" "user_2" "Push Day" None 20250603 (Some 45).

Definition legDayStore : DB :=
  mkDB [legDay; pushDay]
       [mkExercise "e1" "w1" "Squat" None 0]
       [mkExerciseSet "s1" "e1" 0 5 100000 120;
        mkExerciseSet "s2" "e1" 1 5 105000 150].

Definition signedIn (u : string) : Env := mkEnv (Some u) legDayStore.

(** The store with uuid ids, as Postgres returns them (lowercase,
    hyphenated). *)
Definition uuidLegDay : Workout :=
  mkWorkout "a0eebc99-9c0b-4ef8-bb6d-6bb9bd380a11" "user_1" "Leg Day" None 20250601 None.

Definition uuidPushDay : Workout :=
  mkWorkout "6ba7b810-9dad-11d1-80b4-00c04fd430c8" "user_2" "Push Day" None 20250603 (Some 45).

Definition uuidStore : DB :=
  mkDB [uuidLegDay; uuidPushDay]
       [mkExercise "e1" "a0eebc99-9c0b-4ef8-bb6d-6bb9bd380a11" "Squat" None 0]
       [mkExerciseSet "s1" "e1" 0 5 100000 120].

(** Exercises and sets stored out of [order]: the bench press (order 1)
    was inserted before the squat (order 0), and the squat's second set
    before its first. *)
Definition outOfOrderStore : DB :=
  mkDB [legDay]
       [mkExercise "e2" "w1" "Bench Press" None 1;
        mkExercise "e1" "w1" "Squat" None 0]
       [mkExerciseSet "s2" "e1" 1 5 105000 150;
        mkExerciseSet "s1" "e1" 0 5 100000 120].

(** A workout with one exercise and one set, to be deleted. *)
Definition cascadeStore : DB :=
  mkDB [legDay]
       [mkExercise "e1" "w1" "Squat" None 0]
       [mkExerciseSet "s1" "e1" 0 5 100000 120].

Example legDay_detail_owner :
  fst (getWorkoutWithExercisesAndSets "w1" (signedIn "user_1") []) =
  inr (Some (mkWorkoutWithExercisesAndSets legDay
     [mkExerciseWithSets (mkExercise "e1" "w1" "Squat" None 0)
        [mkExerciseSet "s1" "e1" 0 5 100000 120;
         mkExerciseSet "s2" "e1" 1 5 105000 150]])).
Proof. reflexivity. Qed.

Example legDay_detail_other :
  fst (getWorkoutWithExercisesAndSets "w1" (signedIn "user_2") []) = inl ForbiddenError.
Proof. reflexivity. Qed.

(** With cascading foreign keys the same delete would remove the children. *)
Example cascade_if_declared :
  deleteWorkoutRow Cascade Cascade "w1" cascadeStore = inr (mkDB [] [] []).
Proof. reflexivity. Qed.

(** C2 (cascade integrity), at its failing input: under the final schema's
    foreign keys ([ON DELETE no action]) deleting a workout that has an
    exercise is rejected by the [exercises_workout_id_workouts_id_fk]
    constraint instead of removing the exercise and its set. *)
Lemma delete_workout_not_cascaded :
  deleteWorkoutStatement "w1" cascadeStore =
  inl (ForeignKeyViolation "exercises_workout_id_workouts_id_fk").
Proof. reflexivity. Qed.

(** C4 (ordering of the detail read), at its failing input: the owner's
    detail read returns the exercises in the order they were stored
    (orders 1 then 0) and the squat's sets likewise (orders 1 then 0). *)
Lemma detail_children_in_scan_order :
  exists r,
    fst (getWorkoutWithExercisesAndSets "w1" (mkEnv (Some "user_1") outOfOrderStore) []) =
      inr (Some r) /\
    map (fun x => e_order (ex x)) (exercises r) = [1; 0] /\
    map (fun x => map s_order (sets x)) (exercises r) = [[]; [1; 0]].
Proof.
  eexists. split; [reflexivity|]. split; reflexivity.
Qed.

(** ** The properties at the scenario's store *)

Ltac distinct_ids := simpl; repeat constructor; simpl; intuition discriminate.

Lemma ownership_isolation_witness :
  (exists rows, fst (getWorkouts None (signedIn "user_2") []) = inr rows /\
                ~ In legDay rows /\ Forall (fun r => w_userId r = "user_2") rows) /\
  fst (getWorkoutWithExercisesAndSets "w1" (signedIn "user_2") []) = inl ForbiddenError.
Proof.
  apply (ownership_isolation (signedIn "user_2") "user_1" "user_2" legDay None []);
    [reflexivity | discriminate | discriminate | distinct_ids | simpl; auto | reflexivity].
Defined.

(** The uuid input forms the Postgres manual lists all read as the same
    value; text that is not a uuid is a syntax error. *)
Example uuid_in_forms :
  Forall (fun t => uuid_in t = uuid_in "a0eebc99-9c0b-4ef8-bb6d-6bb9bd380a11")
    ["A0EEBC99-9C0B-4EF8-BB6D-6BB9BD380A11"; "{a0eebc99-9c0b-4ef8-bb6d-6bb9bd380a11}";
     "a0eebc999c0b4ef8bb6d6bb9bd380a11"; "a0ee-bc99-9c0b-4ef8-bb6d-6bb9-bd38-0a11";
     "{a0eebc99-9c0b4ef8-bb6d6bb9-bd380a11}"] /\
  uuid_in "a0eebc99-9c0b-4ef8-bb6d-6bb9bd380a11" <> None.
Proof. split; [repeat constructor | vm_compute; discriminate]. Qed.

Example uuid_in_rejects :
  Forall (fun t => uuid_in t = None)
    ["not-a-uuid"; "w1"; "a0eebc99-9c0b-4ef8-bb6d-6bb9bd380a1";
     "a0eebc99-9c0b-4ef8-bb6d-6bb9bd380a11-"; "{a0eebc99-9c0b-4ef8-bb6d-6bb9bd380a11";
     "a0eebc9-99c0b-4ef8-bb6d-6bb9bd380a11"; "g0eebc99-9c0b-4ef8-bb6d-6bb9bd380a11"].
Proof. repeat constructor. Qed.

(** C3 fails as stated: no workout has the id ["not-a-uuid"], yet the
    detail read of it is neither "not found" nor [ForbiddenError]: the
    store rejects the parameter of the uuid column. *)
Lemma notfound_forbidden_distinction_malformed_id :
  (~ exists w, In w (workoutsT uuidStore) /\ w_id w = "not-a-uuid") /\
  fst (getWorkoutWithExercisesAndSetsUuid "not-a-uuid" (mkEnv (Some "user_1") uuidStore) [])
    = inl InvalidTextRepresentation /\
  fst (getWorkoutWithExercisesAndSetsUuid "not-a-uuid" (mkEnv (Some "user_1") uuidStore) [])
    <> inr None /\
  fst (getWorkoutWithExercisesAndSetsUuid "not-a-uuid" (mkEnv (Some "user_1") uuidStore) [])
    <> inl ForbiddenError.
Proof.
  split; [|vm_compute; repeat split; discriminate].
  intros [w [Hin Hid]]. simpl in Hin.
  destruct Hin as [<-|[<-|[]]]; discriminate Hid.
Qed.

Lemma notfound_forbidden_distinction_uuid_witness :
  (uuid_in "A0EEBC99-9C0B-4EF8-BB6D-6BB9BD380A11" = None ->
   fst (getWorkoutWithExercisesAndSetsUuid "A0EEBC99-9C0B-4EF8-BB6D-6BB9BD380A11"
          (mkEnv (Some "user_2") uuidStore) []) = inl InvalidTextRepresentation) /\
  (forall bs, uuid_in "A0EEBC99-9C0B-4EF8-BB6D-6BB9BD380A11" = Some bs ->
   (fst (getWorkoutWithExercisesAndSetsUuid "A0EEBC99-9C0B-4EF8-BB6D-6BB9BD380A11"
          (mkEnv (Some "user_2") uuidStore) []) = inr None <->
    ~ exists w, In w (workoutsT uuidStore) /\ uuid_in (w_id w) = Some bs) /\
   (fst (getWorkoutWithExercisesAndSetsUuid "A0EEBC99-9C0B-4EF8-BB6D-6BB9BD380A11"
          (mkEnv (Some "user_2") uuidStore) []) = inl ForbiddenError <->
    exists w, In w (workoutsT uuidStore) /\ uuid_in (w_id w) = Some bs /\
              w_userId w <> "user_2")) /\
  (inr None : AppError + option WorkoutWithExercisesAndSets) <> inl ForbiddenError /\
  (inr None : AppError + option WorkoutWithExercisesAndSets) <> inl InvalidTextRepresentation /\
  ForbiddenError <> InvalidTextRepresentation.
Proof.
  apply (notfound_forbidden_distinction_uuid (mkEnv (Some "user_2") uuidStore) "user_2"
           "A0EEBC99-9C0B-4EF8-BB6D-6BB9BD380A11" []);
    [reflexivity | discriminate | vm_compute; repeat constructor; simpl; intuition discriminate].
Defined.

Lemma half_open_date_range_witness :
  exists rows,
    fst (getWorkouts (Some (mkFilter (Some 20250601) (Some 20250603))) (signedIn "user_1") [])
      = inr rows /\
    (w_date legDay = 20250601 -> 20250601 < 20250603 -> In legDay rows) /\
    (w_date legDay = 20250603 -> ~ In legDay rows).
Proof.
  apply (half_open_date_range (signedIn "user_1") "user_1" 20250601 20250603 legDay []);
    [reflexivity | discriminate | simpl; auto | reflexivity].
Defined.

Lemma list_newest_first_witness :
  exists rows,
    fst (getWorkouts None (signedIn "user_1") []) = inr rows /\
    Sorted newerOrSame rows /\
    ((None : option Filter) = None \/ (None : option Filter) = Some (mkFilter None None) ->
     Permutation rows (filter (fun w => String.eqb (w_userId w) "user_1") (workoutsT legDayStore))).
Proof.
  apply (list_newest_first (signedIn "user_1") "user_1" None []);
    [reflexivity | discriminate].
Defined.

Lemma one_sided_filters_witness :
  fst (getWorkouts (Some (mkFilter (Some 20250602) None)) (signedIn "user_2") []) =
    inr (sortDateDesc (filter (fun w => String.eqb (w_userId w) "user_2" && Z.leb 20250602 (w_date w))
                              (workoutsT legDayStore))) /\
  fst (getWorkouts (Some (mkFilter None (Some 20250602))) (signedIn "user_2") []) =
    inr (sortDateDesc (filter (fun w => String.eqb (w_userId w) "user_2" && Z.ltb (w_date w) 20250602)
                              (workoutsT legDayStore))) /\
  fst (getWorkouts (Some (mkFilter None None)) (signedIn "user_2") []) =
    inr (sortDateDesc (filter (fun w => String.eqb (w_userId w) "user_2") (workoutsT legDayStore))) /\
  fst (getWorkouts None (signedIn "user_2") []) =
    inr (sortDateDesc (filter (fun w => String.eqb (w_userId w) "user_2") (workoutsT legDayStore))).
Proof.
  apply (one_sided_filters (signedIn "user_2") "user_2" 20250602 20250602 []);
    [reflexivity | discriminate].
Defined.

Lemma detail_read_independent_of_caller_witness :
  snd (getWorkoutWithExercisesAndSets "w1" (signedIn "user_2") []) =
    [ReadWorkoutDetail (findWorkoutWithExercisesAndSets "w1" legDayStore)] /\
  snd (getWorkoutWithExercisesAndSets "w1" (signedIn "user_1") []) =
    snd (getWorkoutWithExercisesAndSets "w1" (signedIn "user_2") []) /\
  (forall W, NoDup (map w_id (workoutsT legDayStore)) -> In W (workoutsT legDayStore) ->
     w_id W = "w1" -> w_userId W <> "user_2" ->
     getWorkoutWithExercisesAndSets "w1" (signedIn "user_2") [] =
       (inl ForbiddenError,
        [ReadWorkoutDetail
                 (Some (mkWorkoutWithExercisesAndSets W (exercisesOf legDayStore W)))])).
Proof.
  apply (detail_read_independent_of_caller (signedIn "user_2") (signedIn "user_1")
           "user_2" "user_1" "w1" []);
    [reflexivity | reflexivity | discriminate | reflexivity | discriminate].
Defined.

Lemma validation_rejection_witness :
  exists field,
    fst (createWorkout "user_1" "w3" (mkCreateWorkoutInput "" None 20250601 None)
                       (signedIn "user_1")) = inl (ValidationFailed field) /\
    ((field = "name" /\ in_name (mkCreateWorkoutInput "" None 20250601 None) = "") \/
     (field = "durationMinutes" /\
      exists m, in_durationMinutes (mkCreateWorkoutInput "" None 20250601 None) = Some m
                /\ m <= 0)) /\
    ValidationFailed field <> StorageFailure /\
    snd (createWorkout "user_1" "w3" (mkCreateWorkoutInput "" None 20250601 None)
                       (signedIn "user_1")) = signedIn "user_1" /\
    (forall f log,
       getWorkouts f (snd (createWorkout "user_1" "w3"
                             (mkCreateWorkoutInput "" None 20250601 None)
                             (signedIn "user_1"))) log =
       getWorkouts f (signedIn "user_1") log).
Proof.
  apply (validation_rejection "user_1" "w3" (mkCreateWorkoutInput "" None 20250601 None)
           (signedIn "user_1"));
    [discriminate | left; reflexivity].
Defined.

(** * Further properties of the callers and of the schema *)

Example includes_zone : includes "Europe/London" "/" = true.
Proof. reflexivity. Qed.

Example includes_utc : includes "UTC" "/" = false.
Proof. reflexivity. Qed.

Example separator_scenario :
  separatorShown [mkExerciseSet "s1" "e1" 0 5 100000 120;
                  mkExerciseSet "s2" "e1" 1 5 105000 150] = [true; true].
Proof. reflexivity. Qed.

(** Two stored rows with the same id are the same row. *)
Lemma unique_row (l : list Workout) (x y : Workout) :
  NoDup (map w_id l) -> In x l -> In y l -> w_id x = w_id y -> x = y.
Proof.
  induction l as [|z r IH]; intros Hnd Hx Hy Hid; [destruct Hx|].
  simpl in Hnd. inversion Hnd as [|? ? Hnotin Hnd']; subst.
  destruct Hx as [<-|Hx], Hy as [<-|Hy]; auto.
  - exfalso. apply Hnotin. rewrite Hid. now apply in_map.
  - exfalso. apply Hnotin. rewrite <- Hid. now apply in_map.
Qed.

Lemma Sorted_map_rel {A B} (R : A -> A -> Prop) (R' : B -> B -> Prop) (f : A -> B)
  (l : list A) :
  (forall a b, R a b -> R' (f a) (f b)) -> Sorted R l -> Sorted R' (map f l).
Proof.
  intros Hf Hs. induction Hs as [|a l Hs IH Hhd]; simpl; constructor; [exact IH|].
  destruct Hhd; simpl; constructor. now apply Hf.
Qed.

(** ** The dashboard list *)

Definition cardNewerOrSame (a b : WorkoutCardProps) : Prop := card_date b <= card_date a.

(** The dashboard list for a day range [[start, end_)], signed in: it is
    empty exactly when the caller has no workout dated in the range;
    otherwise its cards are exactly the caller's workouts dated in the
    range, newest first. *)
Theorem workout_list_view (env : Env) (u : string) (start end_ : Date)
  (log : list StoreRead) :
  session_userId env = Some u -> u <> EmptyString ->
  (fst (WorkoutList start end_ env log) = WorkoutListEmpty <->
   forall w, In w (workoutsT (db env)) -> w_userId w = u ->
             ~ (start <= w_date w /\ w_date w < end_)) /\
  (forall cards, fst (WorkoutList start end_ env log) = WorkoutCards cards ->
     (forall c, In c cards <->
        exists w, In w (workoutsT (db env)) /\ w_userId w = u /\
                  start <= w_date w /\ w_date w < end_ /\ c = toCardProps w) /\
     Sorted cardNewerOrSame cards).
Proof.
  intros Hs Hne. unfold WorkoutList.
  rewrite (getWorkouts_signed_in env u Hs Hne). cbn iota beta.
  set (rows := selectWorkouts (buildConditions u (Some (mkFilter (Some start) (Some end_))))
                              (db env)).
  assert (Hrows : forall w, In w rows <->
            In w (workoutsT (db env)) /\ w_userId w = u /\ start <= w_date w /\ w_date w < end_).
  { intros w. unfold rows. rewrite In_selectWorkouts, evalAnd_buildConditions. simpl.
    tauto. }
  assert (Hsorted : Sorted newerOrSame rows) by apply sortDateDesc_sorted.
  clearbody rows. split.
  - destruct rows as [|r rs]; simpl; split.
    + intros _ w Hin Hown Hrange. apply (proj2 (Hrows w)). tauto.
    + reflexivity.
    + intros Hc. discriminate Hc.
    + intros Hno. exfalso. destruct (proj1 (Hrows r) (or_introl eq_refl)) as [Hin [Hown Hr]].
      exact (Hno r Hin Hown Hr).
  - intros cards Hc. destruct rows as [|r rs]; simpl in Hc; [discriminate Hc|].
    injection Hc as <-.
    change (toCardProps r :: map toCardProps rs) with (map toCardProps (r :: rs)).
    split.
    + intros c. rewrite in_map_iff. split.
      * intros [w [<- Hw]]. exists w. apply Hrows in Hw. tauto.
      * intros [w [Hin [Hown [H1 [H2 ->]]]]]. exists w. split; [reflexivity|].
        apply Hrows. tauto.
    + apply (Sorted_map_rel newerOrSame); [|exact Hsorted].
      intros a b. unfold newerOrSame, cardNewerOrSame. simpl. auto.
Qed.

(** Following a card of the dashboard list, as the same signed-in caller,
    opens the detail page of the very workout the card shows: its link is
    [/workouts/<id>] and the page renders that workout, never the
    not-found page or [ForbiddenError]. *)
Theorem list_card_opens_detail (env : Env) (u : string) (start end_ : Date)
  (log log' : list StoreRead) (cards : list WorkoutCardProps) (c : WorkoutCardProps) :
  session_userId env = Some u -> u <> EmptyString ->
  NoDup (map w_id (workoutsT (db env))) ->
  fst (WorkoutList start end_ env log) = WorkoutCards cards -> In c cards ->
  exists W, toCardProps W = c /\
    cardHref c = ("/workouts/" ++ w_id W)%string /\
    fst (WorkoutDetailsPage (card_id c) env log') =
      RenderWorkoutDetail (mkWorkoutWithExercisesAndSets W (exercisesOf (db env) W)).
Proof.
  intros Hs Hne Hnd Hl Hc. unfold WorkoutList in Hl.
  rewrite (getWorkouts_signed_in env u Hs Hne) in Hl. cbn iota beta in Hl.
  destruct (selectWorkouts _ (db env)) as [|r rs] eqn:Hsel; simpl in Hl;
    [discriminate Hl|].
  injection Hl as <-.
  change (toCardProps r :: map toCardProps rs) with (map toCardProps (r :: rs)) in Hc.
  apply in_map_iff in Hc as [W [<- HW]].
  rewrite <- Hsel in HW. apply In_selectWorkouts in HW as [Hin Hcond].
  apply evalAnd_buildConditions in Hcond as [Hown _].
  exists W. split; [reflexivity|]. split; [reflexivity|].
  unfold WorkoutDetailsPage.
  rewrite (getWorkoutWithExercisesAndSets_signed_in env u Hs Hne).
  unfold findWorkoutWithExercisesAndSets. simpl.
  rewrite (find_by_unique_id _ W Hnd Hin). simpl.
  destruct (String.eqb_spec (w_userId W) u); [reflexivity|contradiction].
Qed.

(** ** The earlier owner-filtered detail helper *)

(** With ownership in the query itself, the store read never returns
    another user's workout: a stored workout is fetched, with its
    exercises and sets, exactly when its owner is the given user, and is
    otherwise reported as absent. *)
Theorem owned_detail_read_scoped (d : DB) (wid uid : string) :
  (forall r, findOwnedWorkoutWithExercisesAndSets wid uid d = Some r ->
     w_id (workout r) = wid /\ w_userId (workout r) = uid) /\
  (forall W, NoDup (map w_id (workoutsT d)) -> In W (workoutsT d) -> w_id W = wid ->
     findOwnedWorkoutWithExercisesAndSets wid uid d =
       if String.eqb (w_userId W) uid
       then Some (mkWorkoutWithExercisesAndSets W (exercisesOf d W))
       else None).
Proof.
  unfold findOwnedWorkoutWithExercisesAndSets. split.
  - intros r. case_eq (find (fun w => String.eqb (w_id w) wid && String.eqb (w_userId w) uid)
                            (workoutsT d)); [|discriminate].
    intros w Hf Hr. injection Hr as <-. simpl.
    apply find_some in Hf as [_ Hp]. apply andb_true_iff in Hp as [H1 H2].
    now rewrite String.eqb_eq in H1, H2.
  - intros W Hnd Hin Hid.
    case_eq (find (fun w => String.eqb (w_id w) wid && String.eqb (w_userId w) uid)
                  (workoutsT d)).
    + intros w Hf. apply find_some in Hf as [Hw Hp].
      apply andb_true_iff in Hp as [H1 H2]. rewrite String.eqb_eq in H1, H2.
      assert (w = W) as -> by (apply (unique_row (workoutsT d)); congruence).
      now rewrite H2, String.eqb_refl.
    + intros Hf. pose proof (find_none _ _ Hf W Hin) as Hx. simpl in Hx.
      rewrite Hid, String.eqb_refl in Hx. simpl in Hx. now rewrite Hx.
Qed.

(** ** Deleting a workout under the final schema *)

Lemma filter_nil_iff {A} (p : A -> bool) (l : list A) :
  filter p l = [] <-> forall x, In x l -> p x = false.
Proof.
  induction l as [|x r IH]; simpl; [split; [intros _ y []|reflexivity]|].
  destruct (p x) eqn:Hp; split.
  - intros H. discriminate H.
  - intros H. rewrite (H x (or_introl eq_refl)) in Hp. discriminate Hp.
  - intros H y [<-|Hy]; [exact Hp|]. now apply IH.
  - intros H. apply IH. intros y Hy. apply H. now right.
Qed.

(** Every exercise has its workout and every set its exercise. *)
Definition noOrphans (d : DB) : Prop :=
  (forall e, In e (exercisesT d) -> exists w, In w (workoutsT d) /\ w_id w = e_workoutId e) /\
  (forall s, In s (exerciseSetsT d) -> exists e, In e (exercisesT d) /\ e_id e = s_exerciseId s).

(** The final schema's foreign keys keep the store free of orphans across
    a workout delete: a delete that succeeds leaves every exercise with its
    workout and every set with its exercise. *)
Theorem delete_workout_keeps_no_orphans (wid : string) (d d' : DB) :
  noOrphans d -> deleteWorkoutStatement wid d = inr d' -> noOrphans d'.
Proof.
  intros [Hex Hset] Hdel.
  unfold deleteWorkoutStatement, deleteWorkoutRow, exercises_workout_id_workouts_id_fk in Hdel.
  destruct (filter (fun e => String.eqb (e_workoutId e) wid) (exercisesT d))
    as [|e0 r] eqn:Hf; [|discriminate Hdel].
  injection Hdel as <-. split; simpl.
  - intros e He. destruct (Hex e He) as [w [Hw Hid]]. exists w. split; [|exact Hid].
    apply filter_In. split; [exact Hw|].
    apply filter_nil_iff with (x := e) in Hf; [|exact He].
    rewrite <- Hid in Hf. now rewrite Hf.
  - exact Hset.
Qed.

(** ** The timezone cookie *)

(** The cookie jar after a sequence of [setTimezoneCookie] calls. *)
Definition afterTimezoneCalls (tzs : list string) (jar : option string) : option string :=
  fold_left (fun j tz => setTimezoneCookie tz j) tzs jar.

Definition zoneLike (jar : option string) : Prop :=
  match jar with None => True | Some v => includes v "/" = true end.

Lemma afterTimezoneCalls_zoneLike (tzs : list string) (jar : option string) :
  zoneLike jar -> zoneLike (afterTimezoneCalls tzs jar).
Proof.
  revert jar. induction tzs as [|tz r IH]; intros jar Hj; simpl; [exact Hj|].
  apply IH. unfold setTimezoneCookie.
  destruct (includes tz "/") eqn:Hi; simpl; [exact Hi|exact Hj].
Qed.

(** When the cookie is only written by [setTimezoneCookie], starting from
    no cookie, the timezone the dashboard uses is ["UTC"] or a value
    containing ["/"]: a value without a slash is never stored. *)
Theorem dashboard_timezone_zone_like (tzs : list string) :
  userTimezone (afterTimezoneCalls tzs None) = "UTC"%string \/
  includes (userTimezone (afterTimezoneCalls tzs None)) "/" = true.
Proof.
  pose proof (afterTimezoneCalls_zoneLike tzs None I) as Hz.
  destruct (afterTimezoneCalls tzs None) as [v|]; simpl in *; [|now left].
  destruct (String.eqb_spec v EmptyString) as [->|_]; [now left|now right].
Qed.

(** ** Separators between sets in the detail view *)

Lemma map_all_true {A} (f : A -> bool) (l : list A) :
  (forall x, In x l -> f x = true) -> map f l = repeat true (List.length l).
Proof.
  induction l as [|x r IH]; intros H; simpl; [reflexivity|].
  rewrite (H x (or_introl eq_refl)), IH; [reflexivity|]. intros y Hy. apply H. now right.
Qed.

Lemma separatorShown_orders (setsL : list ExerciseSet) :
  separatorShown setsL =
  map (fun o => negb (Z.eqb o (Z.of_nat (List.length setsL)))) (map s_order setsL).
Proof. unfold separatorShown. now rewrite map_map. Qed.

(** When an exercise's sets carry the orders [0, 1, ..., n-1] in display
    order (0-based, as the sets are numbered from 0), no set's order equals
    the number of sets, so a separator is drawn after every set, the last
    one included. *)
Theorem separator_after_every_zero_based_set (setsL : list ExerciseSet) :
  map s_order setsL = map Z.of_nat (seq 0 (List.length setsL)) ->
  separatorShown setsL = repeat true (List.length setsL).
Proof.
  intros Hord. unfold separatorShown. apply map_all_true.
  intros s Hs. apply (in_map s_order) in Hs. rewrite Hord in Hs.
  apply in_map_iff in Hs as [k [Hk Hin]]. apply in_seq in Hin.
  rewrite <- Hk. apply negb_true_iff, Z.eqb_neq. lia.
Qed.

(** When the orders are [1, 2, ..., n] instead (1-based), exactly the
    last set is drawn without a separator. *)
Theorem separator_one_based_sets (setsL : list ExerciseSet) :
  setsL <> [] ->
  map s_order setsL = map Z.of_nat (seq 1 (List.length setsL)) ->
  separatorShown setsL = (repeat true (List.length setsL - 1) ++ [false])%list.
Proof.
  intros Hne Hord. rewrite separatorShown_orders, Hord.
  destruct (List.length setsL) as [|m] eqn:Hn.
  - destruct setsL; [contradiction|discriminate Hn].
  - rewrite seq_S, !map_app. simpl.
    simpl. rewrite Pos.eqb_refl. f_equal. replace (m - 0)%nat with (List.length (map Z.of_nat (seq 1 m)))
      by (now rewrite length_map, length_seq, Nat.sub_0_r).
    apply map_all_true. intros o Ho. apply in_map_iff in Ho as [k [<- Hk]].
    apply in_seq in Hk. apply negb_true_iff, Z.eqb_neq. lia.
Qed.

(** ** The further properties at the scenario's store *)

Definition scenarioSets : list ExerciseSet :=
  [mkExerciseSet "s1" "e1" 0 5 100000 120; mkExerciseSet "s2" "e1" 1 5 105000 150].

Definition oneBasedSets : list ExerciseSet :=
  [mkExerciseSet "s1" "e1" 1 5 100000 120; mkExerciseSet "s2" "e1" 2 5 105000 150].

Lemma workout_list_view_witness :
  (fst (WorkoutList 20250601 20250602 (signedIn "user_1") []) = WorkoutListEmpty <->
   forall w, In w (workoutsT legDayStore) -> w_userId w = "user_1" ->
             ~ (20250601 <= w_date w /\ w_date w < 20250602)) /\
  (forall cards, fst (WorkoutList 20250601 20250602 (signedIn "user_1") []) = WorkoutCards cards ->
     (forall c, In c cards <->
        exists w, In w (workoutsT legDayStore) /\ w_userId w = "user_1" /\
                  20250601 <= w_date w /\ w_date w < 20250602 /\ c = toCardProps w) /\
     Sorted cardNewerOrSame cards).
Proof.
  apply (workout_list_view (signedIn "user_1") "user_1" 20250601 20250602 []);
    [reflexivity | discriminate].
Defined.

Lemma list_card_opens_detail_witness :
  exists W, toCardProps W = toCardProps legDay /\
    cardHref (toCardProps legDay) = ("/workouts/" ++ w_id W)%string /\
    fst (WorkoutDetailsPage (card_id (toCardProps legDay)) (signedIn "user_1") []) =
      RenderWorkoutDetail (mkWorkoutWithExercisesAndSets W (exercisesOf legDayStore W)).
Proof.
  apply (list_card_opens_detail (signedIn "user_1") "user_1" 20250601 20250602 [] []
           [toCardProps legDay] (toCardProps legDay));
    [reflexivity | discriminate | distinct_ids | reflexivity | simpl; auto].
Defined.

Lemma delete_workout_keeps_no_orphans_witness :
  noOrphans (mkDB [legDay] (exercisesT legDayStore) (exerciseSetsT legDayStore)).
Proof.
  apply (delete_workout_keeps_no_orphans "w2" legDayStore); [|reflexivity].
  split; simpl; intros x Hx; repeat destruct Hx as [<-|Hx]; try contradiction;
    eexists; (split; [left; reflexivity | reflexivity]).
Defined.

Lemma separator_after_every_zero_based_set_witness :
  separatorShown scenarioSets = repeat true 2.
Proof.
  apply (separator_after_every_zero_based_set scenarioSets). reflexivity.
Defined.

Lemma separator_one_based_sets_witness :
  separatorShown oneBasedSets = ([true] ++ [false])%list.
Proof.
  apply (separator_one_based_sets oneBasedSets); [discriminate | reflexivity].
Defined.
